(** * Geometry construction and tagging layer of [meshing.py]

    The three shape builders of [src/meshing.py] ([create_rectangle_mesh],
    [create_rectangle_frac_mesh], [create_cube_mesh]) are embedded as programs
    of a small state-and-exception monad over a model of the external engine
    (the [gmsh] Python module).

    Conventions of the embedding:
    - Python [float] values are idealised as real numbers ([R]); no statement
      below depends on rounding.
    - Python [int] entity tags are [Z]; a negated tag ([-l7]) is [Z.opp].
    - The engine is process-wide mutable state: it is the state of the monad,
      and it survives an exception. *)

From Stdlib Require Import ZArith List Ascii String Bool Reals Lra Lia.
From ExtLib Require Import Structures.Monad.
Import ListNotations.
Import MonadNotation.
Local Open Scope monad_scope.
Local Open Scope string_scope.
Local Open Scope Z_scope.

(** ** [pathlib.Path], as far as the builders use it *)

Module Pathlib.

(** A path is kept in the decomposed form that [Path.stem] and
    [Path.with_suffix] work on: directory part, stem and last suffix. The
    values of this type are the paths with a non-empty final component: the
    stem has a first character. [Path('')] and the like, whose name is empty
    and for which [with_suffix] raises [ValueError], are not values of it. *)
Record Path : Type := {
  parent : string;
  stem_head : ascii;
  stem_tail : string;
  suffix : string
}.

(** [Path.stem] *)
Definition stem (p : Path) : string :=
  String (stem_head p) (stem_tail p).

(** [Path.with_suffix(s)], for a suffix that is a dot followed by something,
    as the ".msh" of the builders; on a path with a name it then replaces the
    last suffix and raises nothing. *)
Definition with_suffix (p : Path) (s : string) : Path :=
  {| parent := parent p; stem_head := stem_head p; stem_tail := stem_tail p;
     suffix := s |}.

Definition str (p : Path) : string :=
  parent p ++ stem p ++ suffix p.

End Pathlib.
Import Pathlib.

(** ** The external engine *)

Module Gmsh.

(** Coordinates and the local mesh size of a point. *)
Record point : Type := {
  px : R;
  py : R;
  pz : R;
  psize : R
}.

(** One geometric model of the engine. Entities are kept by kind, in the
    order of their creation, each with the tag the engine gave it. *)
Record model : Type := {
  name : string;
  points : list (Z * point);
  lines : list (Z * (Z * Z));
  curveLoops : list (Z * list Z);
  planeSurfaces : list (Z * list Z);
  surfaceLoops : list (Z * list Z);
  volumes : list (Z * list Z);
  physicalGroups : list ((Z * Z) * list Z);
  physicalNames : list ((Z * Z) * string);
  synchronized : bool;
  meshDim : option Z
}.

Definition empty_model (n : string) : model :=
  {| name := n; points := []; lines := []; curveLoops := [];
     planeSurfaces := []; surfaceLoops := []; volumes := [];
     physicalGroups := []; physicalNames := [];
     synchronized := true; meshDim := None |}.

(** The state of the process-wide engine session. [files] is the file
    system as the engine writes it: a written mesh file holds the model it
    was serialised from. [fault] injects a failure: [Some k] makes the
    engine accept [k] more calls and reject the next one. *)
Record session : Type := {
  initialized : bool;
  options : list (string * R);
  models : list model;
  files : list (string * model);
  fault : option nat
}.

Definition fresh : session :=
  {| initialized := false; options := []; models := []; files := [];
     fault := None |}.

Definition failing_at (k : nat) : session :=
  {| initialized := false; options := []; models := []; files := [];
     fault := Some k |}.

End Gmsh.
Import Gmsh.

(** ** Exceptions and the monad of builder code *)

(** [EngineFailure] is an exception raised inside the engine; [IndexError]
    is Python's own. [InvalidParameter] and [DegenerateTopology] are the
    error classes the specification names. *)
Inductive exn : Type :=
| InvalidParameter
| DegenerateTopology
| EngineFailure
| IndexError.

Inductive outcome (A : Type) : Type :=
| Returned (a : A) (s : session)
| Raised (e : exn) (s : session).
Arguments Returned {A} a s.
Arguments Raised {A} e s.

Definition Py (A : Type) : Type := session -> outcome A.

Definition Py_ret {A : Type} (a : A) : Py A := fun s => Returned a s.

Definition Py_bind {A B : Type} (c : Py A) (k : A -> Py B) : Py B :=
  fun s => match c s with
           | Returned a s' => k a s'
           | Raised e s' => Raised e s'
           end.

#[global] Instance Monad_Py : Monad Py :=
  {| ret := @Py_ret; bind := @Py_bind |}.

Definition Py_raise {A : Type} (e : exn) : Py A := fun s => Raised e s.

Definition final_session {A : Type} (o : outcome A) : session :=
  match o with
  | Returned _ s => s
  | Raised _ s => s
  end.

Definition raised {A : Type} (o : outcome A) : option exn :=
  match o with
  | Returned _ _ => None
  | Raised e _ => Some e
  end.

(** Python's [for x in xs: body]. *)
Fixpoint for_each {A : Type} (xs : list A) (body : A -> Py unit) : Py unit :=
  match xs with
  | [] => ret tt
  | x :: rest => body x ;; for_each rest body
  end.

(** Python's list comprehension [[f(x) for x in xs]]. *)
Fixpoint comprehension {A B : Type} (xs : list A) (f : A -> Py B)
  : Py (list B) :=
  match xs with
  | [] => ret []
  | x :: rest => y <- f x ;; ys <- comprehension rest f ;; ret (y :: ys)
  end.

(** Python's [xs[i]] for a non-negative literal index. *)
Definition getitem {A : Type} (xs : list A) (i : nat) : Py A :=
  match nth_error xs i with
  | Some x => ret x
  | None => Py_raise IndexError
  end.

(** ** The engine's API

    Only what the builders call is modelled, and of that only the bookkeeping
    of entities, tags and files: the engine numbers the entities of each kind
    of a model 1, 2, 3, ... (one more than the largest tag in use), refuses a
    reference to an entity that does not exist, and otherwise accepts every
    call unless [fault] says so. Geometric validation and the mesh itself are
    the engine's own business and are represented by [fault] alone. *)

Module GmshApi.

Definition next_tag {A : Type} (l : list (Z * A)) : Z :=
  1 + fold_right Z.max 0 (map fst l).

Definition has_tag {A : Type} (l : list (Z * A)) (t : Z) : bool :=
  existsb (fun e => Z.eqb (fst e) t) l.

Definition lookup {A : Type} (l : list (Z * A)) (t : Z) : option A :=
  option_map snd (find (fun e => Z.eqb (fst e) t) l).

Definition with_fault (f : option nat) (s : session) : session :=
  {| initialized := initialized s; options := options s;
     models := models s; files := files s; fault := f |}.

Definition with_models (ms : list model) (s : session) : session :=
  {| initialized := initialized s; options := options s;
     models := ms; files := files s; fault := fault s |}.

(** Every API call goes through [call]: the injected fault is consulted
    first, then the session must be initialised, then the call itself may
    refuse ([None]). A refused call leaves the session as it was. *)
Definition call {A : Type} (f : session -> option (A * session)) : Py A :=
  fun s =>
    match fault s with
    | Some O => Raised EngineFailure (with_fault None s)
    | fl =>
        let s1 := with_fault (option_map Nat.pred fl) s in
        if initialized s1 then
          match f s1 with
          | Some (a, s2) => Returned a s2
          | None => Raised EngineFailure s1
          end
        else Raised EngineFailure s1
    end.

(** A call that works on the current model (the head of [models]). *)
Definition on_model {A : Type} (f : model -> option (A * model)) : Py A :=
  call (fun s =>
          match models s with
          | [] => None
          | m :: rest =>
              match f m with
              | Some (a, m') => Some (a, with_models (m' :: rest) s)
              | None => None
              end
          end).

(** [gmsh.initialize()]: a second initialisation of a live session is
    ignored by the engine. *)
Definition initialize : Py unit :=
  fun s =>
    match fault s with
    | Some O => Raised EngineFailure (with_fault None s)
    | fl =>
        Returned tt
          (if initialized s then with_fault (option_map Nat.pred fl) s
           else {| initialized := true; options := options s;
                   models := [empty_model ""]; files := files s;
                   fault := option_map Nat.pred fl |})
    end.

(** [gmsh.finalize()] *)
Definition finalize : Py unit :=
  call (fun s =>
          Some (tt, {| initialized := false; options := [];
                       models := []; files := files s;
                       fault := fault s |})).

(** [gmsh.option.setNumber(name, value)] *)
Definition option_setNumber (n : string) (v : R) : Py unit :=
  call (fun s =>
          Some (tt, {| initialized := initialized s;
                       options :=
                         filter (fun o => negb (String.eqb (fst o) n))
                                (options s) ++ [(n, v)];
                       models := models s; files := files s;
                       fault := fault s |})).

(** [gmsh.model.add(name)]: the new model becomes the current one. *)
Definition model_add (n : string) : Py unit :=
  call (fun s => Some (tt, with_models (empty_model n :: models s) s)).

(** [gmsh.model.occ.addPoint(x, y, z, meshSize)] *)
Definition occ_addPoint (x y z meshSize : R) : Py Z :=
  on_model (fun m =>
    let t := next_tag (points m) in
    Some (t, {| name := name m;
                points := points m ++
                  [(t, {| px := x; py := y; pz := z; psize := meshSize |})];
                lines := lines m; curveLoops := curveLoops m;
                planeSurfaces := planeSurfaces m;
                surfaceLoops := surfaceLoops m; volumes := volumes m;
                physicalGroups := physicalGroups m;
                physicalNames := physicalNames m;
                synchronized := false; meshDim := meshDim m |})).

(** [gmsh.model.occ.addLine(startTag, endTag)]. Only the existence of the
    two points is checked here. The engine itself also refuses a line whose
    end points coincide; that refusal is a matter of the coordinates and is
    represented by [fault]. *)
Definition occ_addLine (startTag endTag : Z) : Py Z :=
  on_model (fun m =>
    if has_tag (points m) startTag && has_tag (points m) endTag then
      let t := next_tag (lines m) in
      Some (t, {| name := name m; points := points m;
                  lines := lines m ++ [(t, (startTag, endTag))];
                  curveLoops := curveLoops m;
                  planeSurfaces := planeSurfaces m;
                  surfaceLoops := surfaceLoops m; volumes := volumes m;
                  physicalGroups := physicalGroups m;
                  physicalNames := physicalNames m;
                  synchronized := false; meshDim := meshDim m |})
    else None).

(** [gmsh.model.occ.addCurveLoop(curveTags)]: the tags are signed. *)
Definition occ_addCurveLoop (curveTags : list Z) : Py Z :=
  on_model (fun m =>
    if forallb (fun c => has_tag (lines m) (Z.abs c)) curveTags then
      let t := next_tag (curveLoops m) in
      Some (t, {| name := name m; points := points m; lines := lines m;
                  curveLoops := curveLoops m ++ [(t, curveTags)];
                  planeSurfaces := planeSurfaces m;
                  surfaceLoops := surfaceLoops m; volumes := volumes m;
                  physicalGroups := physicalGroups m;
                  physicalNames := physicalNames m;
                  synchronized := false; meshDim := meshDim m |})
    else None).

(** [gmsh.model.occ.addPlaneSurface(wireTags)] *)
Definition occ_addPlaneSurface (wireTags : list Z) : Py Z :=
  on_model (fun m =>
    if forallb (fun w => has_tag (curveLoops m) (Z.abs w)) wireTags then
      let t := next_tag (planeSurfaces m) in
      Some (t, {| name := name m; points := points m; lines := lines m;
                  curveLoops := curveLoops m;
                  planeSurfaces := planeSurfaces m ++ [(t, wireTags)];
                  surfaceLoops := surfaceLoops m; volumes := volumes m;
                  physicalGroups := physicalGroups m;
                  physicalNames := physicalNames m;
                  synchronized := false; meshDim := meshDim m |})
    else None).

(** [gmsh.model.occ.addSurfaceLoop(surfaceTags)] *)
Definition occ_addSurfaceLoop (surfaceTags : list Z) : Py Z :=
  on_model (fun m =>
    if forallb (fun f => has_tag (planeSurfaces m) f) surfaceTags then
      let t := next_tag (surfaceLoops m) in
      Some (t, {| name := name m; points := points m; lines := lines m;
                  curveLoops := curveLoops m;
                  planeSurfaces := planeSurfaces m;
                  surfaceLoops := surfaceLoops m ++ [(t, surfaceTags)];
                  volumes := volumes m;
                  physicalGroups := physicalGroups m;
                  physicalNames := physicalNames m;
                  synchronized := false; meshDim := meshDim m |})
    else None).

(** [gmsh.model.occ.addVolume(shellTags)] *)
Definition occ_addVolume (shellTags : list Z) : Py Z :=
  on_model (fun m =>
    if forallb (fun f => has_tag (surfaceLoops m) f) shellTags then
      let t := next_tag (volumes m) in
      Some (t, {| name := name m; points := points m; lines := lines m;
                  curveLoops := curveLoops m;
                  planeSurfaces := planeSurfaces m;
                  surfaceLoops := surfaceLoops m;
                  volumes := volumes m ++ [(t, shellTags)];
                  physicalGroups := physicalGroups m;
                  physicalNames := physicalNames m;
                  synchronized := false; meshDim := meshDim m |})
    else None).

(** [gmsh.model.occ.synchronize()] *)
Definition occ_synchronize : Py unit :=
  on_model (fun m =>
    Some (tt, {| name := name m; points := points m; lines := lines m;
                 curveLoops := curveLoops m;
                 planeSurfaces := planeSurfaces m;
                 surfaceLoops := surfaceLoops m; volumes := volumes m;
                 physicalGroups := physicalGroups m;
                 physicalNames := physicalNames m;
                 synchronized := true; meshDim := meshDim m |})).

Definition same_key (k1 k2 : Z * Z) : bool :=
  Z.eqb (fst k1) (fst k2) && Z.eqb (snd k1) (snd k2).

Definition set_name (k : Z * Z) (n : string)
           (l : list ((Z * Z) * string)) : list ((Z * Z) * string) :=
  filter (fun e => negb (same_key (fst e) k)) l ++ [(k, n)].

(** The tag of a new physical group: the engine keeps one counter for the
    physical groups of all dimensions, so the new tag is one more than the
    largest tag in use, whatever [dim] is. *)
Definition next_group (dim : Z) (l : list ((Z * Z) * list Z)) : Z :=
  1 + fold_right Z.max 0 (map (fun e => snd (fst e)) l).

(** [gmsh.model.addPhysicalGroup(dim, tags, name=...)]; the default
    [name=""] gives the group no name. *)
Definition model_addPhysicalGroup (dim : Z) (tags : list Z) (n : string)
  : Py Z :=
  on_model (fun m =>
    let t := next_group dim (physicalGroups m) in
    Some (t, {| name := name m; points := points m; lines := lines m;
                curveLoops := curveLoops m;
                planeSurfaces := planeSurfaces m;
                surfaceLoops := surfaceLoops m; volumes := volumes m;
                physicalGroups := physicalGroups m ++ [((dim, t), tags)];
                physicalNames :=
                  (if String.eqb n "" then physicalNames m
                   else set_name (dim, t) n (physicalNames m));
                synchronized := synchronized m; meshDim := meshDim m |})).

(** [gmsh.model.setPhysicalName(dim, tag, name)] *)
Definition model_setPhysicalName (dim tag : Z) (n : string) : Py unit :=
  on_model (fun m =>
    Some (tt, {| name := name m; points := points m; lines := lines m;
                 curveLoops := curveLoops m;
                 planeSurfaces := planeSurfaces m;
                 surfaceLoops := surfaceLoops m; volumes := volumes m;
                 physicalGroups := physicalGroups m;
                 physicalNames := set_name (dim, tag) n (physicalNames m);
                 synchronized := synchronized m; meshDim := meshDim m |})).

(** [gmsh.model.mesh.generate(dim)]. The mesher is not modelled: the call
    only records the dimension asked for. The engine refuses a mesh size that
    is not positive and may not come back at all from curve loops that cross
    themselves; a refusal is represented by [fault], and a run that does not
    come back has no outcome in this model. Statements about a session from
    [fresh] are therefore statements about an engine that accepts and
    meshes what it is given. *)
Definition mesh_generate (dim : Z) : Py unit :=
  on_model (fun m =>
    Some (tt, {| name := name m; points := points m; lines := lines m;
                 curveLoops := curveLoops m;
                 planeSurfaces := planeSurfaces m;
                 surfaceLoops := surfaceLoops m; volumes := volumes m;
                 physicalGroups := physicalGroups m;
                 physicalNames := physicalNames m;
                 synchronized := synchronized m; meshDim := Some dim |})).

(** [gmsh.write(fileName)]: the current model is serialised to the file,
    replacing a file of that name. The file system is flat: directories and
    I/O errors (a missing directory, say) are not modelled other than by
    [fault]. *)
Definition write (fileName : string) : Py unit :=
  call (fun s =>
          match models s with
          | [] => None
          | m :: _ =>
              Some (tt, {| initialized := initialized s;
                           options := options s; models := models s;
                           files :=
                             filter (fun f => negb (String.eqb (fst f) fileName))
                                    (files s) ++ [(fileName, m)];
                           fault := fault s |})
          end).

End GmshApi.

(** ** [math] *)

Module Math.

(** [math.radians(x)] *)
Definition radians (x : R) : R := (x * (PI / 180))%R.

(** [math.tan(x)], as the real tangent: like all arithmetic here it is
    exact, where the floats of the source round. *)
Definition tan (x : R) : R := Rtrigo1.tan x.

End Math.

(** ** The three builders, line by line as in [meshing.py] *)

Definition create_rectangle_mesh
  (filepath : Path) (width height mesh_size center_z : R) : Py unit :=
  GmshApi.initialize ;;
  GmshApi.option_setNumber "General.Verbosity" 0%R ;;
  GmshApi.option_setNumber "Mesh.CharacteristicLengthMin" mesh_size ;;
  GmshApi.option_setNumber "Mesh.CharacteristicLengthMax" mesh_size ;;
  GmshApi.model_add (stem filepath) ;;
  let z := center_z in
  p1 <- GmshApi.occ_addPoint 0%R (z + height / 2)%R 0%R mesh_size ;;
  p2 <- GmshApi.occ_addPoint width (z + height / 2)%R 0%R mesh_size ;;
  p3 <- GmshApi.occ_addPoint width (z - height / 2)%R 0%R mesh_size ;;
  p4 <- GmshApi.occ_addPoint 0%R (z - height / 2)%R 0%R mesh_size ;;
  GmshApi.occ_synchronize ;;
  l1 <- GmshApi.occ_addLine p1 p2 ;;
  l2 <- GmshApi.occ_addLine p2 p3 ;;
  l3 <- GmshApi.occ_addLine p3 p4 ;;
  l4 <- GmshApi.occ_addLine p4 p1 ;;
  GmshApi.occ_synchronize ;;
  cl <- GmshApi.occ_addCurveLoop [l1; l2; l3; l4] ;;
  surf <- GmshApi.occ_addPlaneSurface [cl] ;;
  GmshApi.occ_synchronize ;;
  pg_domain <- GmshApi.model_addPhysicalGroup 2 [surf] "" ;;
  GmshApi.model_setPhysicalName 2 pg_domain "domain" ;;
  let bcs := [("top", l1); ("right", l2); ("bottom", l3); ("left", l4)] in
  for_each bcs (fun '(name, line) =>
    pg <- GmshApi.model_addPhysicalGroup 1 [line] "" ;;
    GmshApi.model_setPhysicalName 1 pg name) ;;
  GmshApi.mesh_generate 2 ;;
  GmshApi.write (str (with_suffix filepath ".msh")) ;;
  GmshApi.finalize.

Definition create_rectangle_frac_mesh
  (filepath : Path) (width height mesh_size center_z : R) (mode : string)
  : Py unit :=
  GmshApi.initialize ;;
  GmshApi.option_setNumber "General.Verbosity" 0%R ;;
  GmshApi.option_setNumber "Mesh.CharacteristicLengthMin" mesh_size ;;
  GmshApi.option_setNumber "Mesh.CharacteristicLengthMax" mesh_size ;;
  GmshApi.model_add (stem filepath) ;;
  let z := center_z in
  p1 <- GmshApi.occ_addPoint 0%R (z + height / 2)%R 0%R mesh_size ;;
  p2 <- GmshApi.occ_addPoint width (z + height / 2)%R 0%R mesh_size ;;
  p3 <- GmshApi.occ_addPoint width (z - height / 2)%R 0%R mesh_size ;;
  p4 <- GmshApi.occ_addPoint 0%R (z - height / 2)%R 0%R mesh_size ;;
  let angle_rad := Math.radians 30%R in
  let p5_x := 0%R in
  let p6_x := width in
  let p5_y := (z - width * Math.tan angle_rad / 2)%R in
  let p6_y := (z + width * Math.tan angle_rad / 2)%R in
  p5 <- GmshApi.occ_addPoint p5_x p5_y 0%R mesh_size ;;
  p6 <- GmshApi.occ_addPoint p6_x p6_y 0%R mesh_size ;;
  GmshApi.occ_synchronize ;;
  l1 <- GmshApi.occ_addLine p2 p1 ;;
  l2 <- GmshApi.occ_addLine p1 p5 ;;
  l3 <- GmshApi.occ_addLine p5 p4 ;;
  l4 <- GmshApi.occ_addLine p4 p3 ;;
  l5 <- GmshApi.occ_addLine p3 p6 ;;
  l6 <- GmshApi.occ_addLine p6 p2 ;;
  l7 <- GmshApi.occ_addLine p6 p5 ;;
  GmshApi.occ_synchronize ;;
  cl1 <- GmshApi.occ_addCurveLoop [l1; l2; - l7; l6] ;;
  surf1 <- GmshApi.occ_addPlaneSurface [cl1] ;;
  cl2 <- GmshApi.occ_addCurveLoop [l4; l5; l7; l3] ;;
  surf2 <- GmshApi.occ_addPlaneSurface [cl2] ;;
  GmshApi.occ_synchronize ;;
  (if String.eqb mode "BC" then
     let bcs := [("top", l1); ("bottom", l4)] in
     for_each bcs (fun '(name, line) =>
       pg <- GmshApi.model_addPhysicalGroup 1 [line] "" ;;
       GmshApi.model_setPhysicalName 1 pg name) ;;
     GmshApi.model_addPhysicalGroup 1 [l5; l6] "right" ;;
     GmshApi.model_addPhysicalGroup 1 [l2; l3] "left" ;;
     GmshApi.model_addPhysicalGroup 0 [p4] "p4" ;;
     ret tt
   else if String.eqb mode "domain" then
     GmshApi.model_addPhysicalGroup 2 [surf1] "top_surf" ;;
     GmshApi.model_addPhysicalGroup 2 [surf2] "bot_surf" ;;
     GmshApi.model_addPhysicalGroup 1 [l7] "fracture" ;;
     ret tt
   else ret tt) ;;
  GmshApi.mesh_generate 2 ;;
  GmshApi.write (str (with_suffix filepath ".msh")) ;;
  GmshApi.finalize.

Definition create_cube_mesh
  (filepath : Path) (width height thickness mesh_size center_z : R)
  : Py unit :=
  GmshApi.initialize ;;
  GmshApi.option_setNumber "General.Verbosity" 0%R ;;
  GmshApi.option_setNumber "Mesh.CharacteristicLengthMin" mesh_size ;;
  GmshApi.option_setNumber "Mesh.CharacteristicLengthMax" mesh_size ;;
  GmshApi.model_add (stem filepath) ;;
  let z0 := (center_z - thickness / 2)%R in
  let z1 := (center_z + thickness / 2)%R in
  let coords := [
    (0%R,   0%R,    z0);
    (width, 0%R,    z0);
    (width, height, z0);
    (0%R,   height, z0);
    (0%R,   0%R,    z1);
    (width, 0%R,    z1);
    (width, height, z1);
    (0%R,   height, z1)
  ] in
  pts <- comprehension coords
           (fun '(x, y, z) => GmshApi.occ_addPoint x y z mesh_size) ;;
  GmshApi.occ_synchronize ;;
  pts0 <- getitem pts 0 ;; pts1 <- getitem pts 1 ;;
  l1 <- GmshApi.occ_addLine pts0 pts1 ;;
  pts1 <- getitem pts 1 ;; pts2 <- getitem pts 2 ;;
  l2 <- GmshApi.occ_addLine pts1 pts2 ;;
  pts2 <- getitem pts 2 ;; pts3 <- getitem pts 3 ;;
  l3 <- GmshApi.occ_addLine pts2 pts3 ;;
  pts3 <- getitem pts 3 ;; pts0 <- getitem pts 0 ;;
  l4 <- GmshApi.occ_addLine pts3 pts0 ;;
  pts4 <- getitem pts 4 ;; pts5 <- getitem pts 5 ;;
  l5 <- GmshApi.occ_addLine pts4 pts5 ;;
  pts5 <- getitem pts 5 ;; pts6 <- getitem pts 6 ;;
  l6 <- GmshApi.occ_addLine pts5 pts6 ;;
  pts6 <- getitem pts 6 ;; pts7 <- getitem pts 7 ;;
  l7 <- GmshApi.occ_addLine pts6 pts7 ;;
  pts7 <- getitem pts 7 ;; pts4 <- getitem pts 4 ;;
  l8 <- GmshApi.occ_addLine pts7 pts4 ;;
  pts0 <- getitem pts 0 ;; pts4 <- getitem pts 4 ;;
  l9 <- GmshApi.occ_addLine pts0 pts4 ;;
  pts1 <- getitem pts 1 ;; pts5 <- getitem pts 5 ;;
  l10 <- GmshApi.occ_addLine pts1 pts5 ;;
  pts2 <- getitem pts 2 ;; pts6 <- getitem pts 6 ;;
  l11 <- GmshApi.occ_addLine pts2 pts6 ;;
  pts3 <- getitem pts 3 ;; pts7 <- getitem pts 7 ;;
  l12 <- GmshApi.occ_addLine pts3 pts7 ;;
  GmshApi.occ_synchronize ;;
  cl_bot   <- GmshApi.occ_addCurveLoop [ l1;  l2;  l3;  l4] ;;
  cl_top   <- GmshApi.occ_addCurveLoop [ l5;  l6;  l7;  l8] ;;
  cl_front <- GmshApi.occ_addCurveLoop [ l1;  l10; - l5; - l9] ;;
  cl_back  <- GmshApi.occ_addCurveLoop [- l3; l11;  l7; - l12] ;;
  cl_left  <- GmshApi.occ_addCurveLoop [ l9; - l8; - l12; l4] ;;
  cl_right <- GmshApi.occ_addCurveLoop [ l10; l6; - l11; - l2] ;;
  GmshApi.occ_synchronize ;;
  s_bot   <- GmshApi.occ_addPlaneSurface [cl_bot] ;;
  s_top   <- GmshApi.occ_addPlaneSurface [cl_top] ;;
  s_front <- GmshApi.occ_addPlaneSurface [cl_front] ;;
  s_back  <- GmshApi.occ_addPlaneSurface [cl_back] ;;
  s_left  <- GmshApi.occ_addPlaneSurface [cl_left] ;;
  s_right <- GmshApi.occ_addPlaneSurface [cl_right] ;;
  GmshApi.occ_synchronize ;;
  sl <- GmshApi.occ_addSurfaceLoop
          [s_bot; s_top; s_front; s_back; s_left; s_right] ;;
  vol <- GmshApi.occ_addVolume [sl] ;;
  GmshApi.occ_synchronize ;;
  pg0 <- GmshApi.model_addPhysicalGroup 0 pts "" ;;
  GmshApi.model_setPhysicalName 0 pg0 "points" ;;
  let all_edges := [l1; l2; l3; l4; l5; l6; l7; l8; l9; l10; l11; l12] in
  pg1 <- GmshApi.model_addPhysicalGroup 1 all_edges "" ;;
  GmshApi.model_setPhysicalName 1 pg1 "edges" ;;
  let face_map := [
    ("bottom", s_bot);
    ("top",    s_top);
    ("front",  s_front);
    ("back",   s_back);
    ("left",   s_left);
    ("right",  s_right)
  ] in
  for_each face_map (fun '(name, surf_tag) =>
    pg <- GmshApi.model_addPhysicalGroup 2 [surf_tag] "" ;;
    GmshApi.model_setPhysicalName 2 pg name) ;;
  pg3 <- GmshApi.model_addPhysicalGroup 3 [vol] "" ;;
  GmshApi.model_setPhysicalName 3 pg3 "volume" ;;
  GmshApi.mesh_generate 3 ;;
  GmshApi.write (str (with_suffix filepath ".msh")) ;;
  GmshApi.finalize.

(** ** The three builders as one family *)

Inductive shape : Type :=
| Rectangle (filepath : Path) (width height mesh_size center_z : R)
| FracturedRectangle (filepath : Path) (width height mesh_size center_z : R)
                     (mode : string)
| Cube (filepath : Path) (width height thickness mesh_size center_z : R).

Definition build (b : shape) : Py unit :=
  match b with
  | Rectangle f w h s z => create_rectangle_mesh f w h s z
  | FracturedRectangle f w h s z mode =>
      create_rectangle_frac_mesh f w h s z mode
  | Cube f w h t s z => create_cube_mesh f w h t s z
  end.

(** The name of the mesh file a builder call writes. *)
Definition mesh_path (b : shape) : string :=
  match b with
  | Rectangle f _ _ _ _ => str (with_suffix f ".msh")
  | FracturedRectangle f _ _ _ _ _ => str (with_suffix f ".msh")
  | Cube f _ _ _ _ _ => str (with_suffix f ".msh")
  end.

(** What a call leaves on disk when it starts from session [s]. *)
Definition written (b : shape) (s : session) : list (string * model) :=
  files (final_session (build b s)).

(** The model a call serialises when the engine accepts everything. *)
Definition mesh_of (b : shape) : option model :=
  match written b fresh with
  | [(_, m)] => Some m
  | _ => None
  end.

(** ** Reading a model: topology, tags, orientation *)

Module Topology.

Definition coords (m : model) (p : Z) : option (R * R * R) :=
  option_map (fun q => (px q, py q, pz q)) (GmshApi.lookup (points m) p).

(** Point where the signed edge reference [e] starts, and where it ends:
    a negative reference runs the line backwards. *)
Definition edge_start (m : model) (e : Z) : option Z :=
  match GmshApi.lookup (lines m) (Z.abs e) with
  | Some (a, b) => Some (if 0 <? e then a else b)
  | None => None
  end.

Definition edge_end (m : model) (e : Z) : option Z :=
  match GmshApi.lookup (lines m) (Z.abs e) with
  | Some (a, b) => Some (if 0 <? e then b else a)
  | None => None
  end.

Definition same_point (a b : option Z) : bool :=
  match a, b with
  | Some x, Some y => Z.eqb x y
  | _, _ => false
  end.

(** [chained m first e rest]: [e] followed by [rest] is a chain of edges,
    each ending where the next starts, the last ending where [first]
    starts. *)
Fixpoint chained (m : model) (first e : Z) (rest : list Z) : bool :=
  match rest with
  | [] => same_point (edge_end m e) (edge_start m first)
  | e' :: rest' =>
      same_point (edge_end m e) (edge_start m e') && chained m first e' rest'
  end.

(** A loop of signed edge references closes topologically. *)
Definition closed_loop (m : model) (loop : list Z) : bool :=
  match loop with
  | [] => false
  | e :: rest => chained m e e rest
  end.

(** Every curve loop a plane surface was built from exists and closes. *)
Definition faces_closed (m : model) : bool :=
  forallb (fun f =>
             forallb (fun cl =>
                        match GmshApi.lookup (curveLoops m) cl with
                        | Some loop => closed_loop m loop
                        | None => false
                        end) (snd f))
          (planeSurfaces m).

(** The signed references to line [l], loop by loop: for each curve loop
    that mentions [l], the references it makes. *)
Definition references (m : model) (l : Z) : list (Z * list Z) :=
  filter (fun cl => negb (Nat.eqb (List.length (snd cl)) 0))
         (map (fun cl => (fst cl, filter (fun e => Z.eqb (Z.abs e) l) (snd cl)))
              (curveLoops m)).

(** Line [l] lies in exactly two loops, once in each. *)
Definition in_two_loops (m : model) (l : Z) : bool :=
  match references m l with
  | [(_, [_]); (_, [_])] => true
  | _ => false
  end.

(** ... and the two references have opposite signs. *)
Definition opposite_signs (m : model) (l : Z) : bool :=
  match references m l with
  | [(_, [a]); (_, [b])] => Z.eqb (a + b) 0
  | _ => false
  end.

(** ... or the same sign. *)
Definition equal_signs (m : model) (l : Z) : bool :=
  match references m l with
  | [(_, [a]); (_, [b])] => Z.eqb a b
  | _ => false
  end.

(** Entities of the physical groups of dimension [dim] named [n]. *)
Definition tagged (m : model) (dim : Z) (n : string) : list (list Z) :=
  map snd
      (filter (fun g =>
                 Z.eqb (fst (fst g)) dim &&
                 existsb (fun pn => GmshApi.same_key (fst pn) (fst g) &&
                                    String.eqb (snd pn) n)
                         (physicalNames m))
              (physicalGroups m)).

(** Names given to physical groups, in the order they were given. *)
Definition tag_names (m : model) : list string :=
  map snd (physicalNames m).

End Topology.

(** ** Orientation of a planar loop in space *)

Module Orientation.

Definition vec : Type := (R * R * R)%type.

Definition vadd (u v : vec) : vec :=
  let '(a, b, c) := u in let '(x, y, z) := v in
  (a + x, b + y, c + z)%R.

Definition cross (u v : vec) : vec :=
  let '(a, b, c) := u in let '(x, y, z) := v in
  (b * z - c * y, c * x - a * z, a * y - b * x)%R.

Definition dot (u v : vec) : R :=
  let '(a, b, c) := u in let '(x, y, z) := v in
  (a * x + b * y + c * z)%R.

Definition vsum (l : list vec) : vec :=
  fold_right vadd (0, 0, 0)%R l.

(** Corners of a loop: the start point of each signed edge, in order. *)
Fixpoint corners (m : model) (loop : list Z) : option (list vec) :=
  match loop with
  | [] => Some []
  | e :: rest =>
      match Topology.edge_start m e with
      | Some p =>
          match Topology.coords m p, corners m rest with
          | Some v, Some vs => Some (v :: vs)
          | _, _ => None
          end
      | None => None
      end
  end.

(** Newell's sum over a polygon: for a planar polygon it is the normal the
    right-hand rule gives to the traversal, of length twice the area. *)
Fixpoint newell (first prev : vec) (rest : list vec) : vec :=
  match rest with
  | [] => cross prev first
  | v :: rest' => vadd (cross prev v) (newell first v rest')
  end.

Definition normal (vs : list vec) : vec :=
  match vs with
  | [] => (0, 0, 0)%R
  | v :: rest => newell v v rest
  end.

(** [outwardness m loop]: the normal of the loop against the direction from
    the middle of all points of the model to the middle of the loop (both
    scaled by the number of points, which keeps the sign). Positive means
    the normal points away from the body, negative into it. *)
Definition outwardness (m : model) (loop : list Z) : option R :=
  match corners m loop with
  | Some vs =>
      let all := map (fun q => (px (snd q), py (snd q), pz (snd q)))
                     (points m) in
      let n := IZR (Z.of_nat (List.length vs)) in
      let k := IZR (Z.of_nat (List.length all)) in
      let '(a, b, c) := vsum vs in
      let '(x, y, z) := vsum all in
      Some (dot (normal vs)
                (a * k - x * n, b * k - y * n, c * k - z * n)%R)
  | None => None
  end.

(** The same for the loop of a face given by name. *)
Definition face_outwardness (m : model) (n : string) : option R :=
  match Topology.tagged m 2 n with
  | [[f]] =>
      match GmshApi.lookup (planeSurfaces m) f with
      | Some [cl] =>
          match GmshApi.lookup (curveLoops m) cl with
          | Some loop => outwardness m loop
          | None => None
          end
      | _ => None
      end
  | _ => None
  end.

End Orientation.

(** ** Observations on outcomes and sessions *)

(** A path for the examples. *)
Definition sample_path : Path :=
  {| parent := "meshes/"; stem_head := "s"%char; stem_tail := "hape";
     suffix := ".geo" |}.

Definition exn_eqb (e1 e2 : exn) : bool :=
  match e1, e2 with
  | InvalidParameter, InvalidParameter => true
  | DegenerateTopology, DegenerateTopology => true
  | EngineFailure, EngineFailure => true
  | IndexError, IndexError => true
  | _, _ => false
  end.

(** The outcome is exception [e]. *)
Definition raises {A : Type} (e : exn) (o : outcome A) : bool :=
  match o with
  | Returned _ _ => false
  | Raised e' _ => exn_eqb e' e
  end.

(** Builder code [c] raises exception [e] in no session. *)
Definition never_raises (e : exn) {A : Type} (c : Py A) : Prop :=
  forall s : session, raises e (c s) = false.

(** Number of engine calls a builder makes when none fails. *)
Definition engine_calls (b : shape) : nat :=
  match b with
  | Rectangle _ _ _ _ _ => 31
  | FracturedRectangle _ _ _ _ _ mode =>
      if String.eqb mode "BC" then 35
      else if String.eqb mode "domain" then 31
      else 28
  | Cube _ _ _ _ _ _ => 65
  end.

(** A call of builder [b] from session [s] runs to the end, leaves the
    session released and empty, and its mesh file (replacing an older file of
    that name) is the one a call from a fresh session writes. *)
Definition clean_run (b : shape) (s : session) : Prop :=
  build b s
  = Returned tt
      {| initialized := false; options := []; models := [];
         files := filter (fun f => negb (String.eqb (fst f) (mesh_path b)))
                         (files s) ++ written b fresh;
         fault := None |}.

(** ** Where the tagged entities lie *)

Module Geometry.

(** Coordinates of all points of the model, in creation order. *)
Definition all_coords (m : model) : list Orientation.vec :=
  map (fun q => (px (snd q), py (snd q), pz (snd q))) (points m).

(** Coordinates of the start and the end of line [l]. *)
Definition edge_points (m : model) (l : Z)
  : option (Orientation.vec * Orientation.vec) :=
  match GmshApi.lookup (lines m) l with
  | Some (a, b) =>
      match Topology.coords m a, Topology.coords m b with
      | Some u, Some v => Some (u, v)
      | _, _ => None
      end
  | None => None
  end.

(** End points of the edges tagged [n], edge by edge. *)
Definition tagged_edges (m : model) (n : string)
  : list (option (Orientation.vec * Orientation.vec)) :=
  map (edge_points m) (List.concat (Topology.tagged m 1 n)).

(** Coordinates of the points tagged [n]. *)
Definition tagged_points (m : model) (n : string)
  : list (option Orientation.vec) :=
  map (Topology.coords m) (List.concat (Topology.tagged m 0 n)).

(** Corners of plane surface [f], along its single loop. *)
Definition face_corners (m : model) (f : Z) : option (list Orientation.vec) :=
  match GmshApi.lookup (planeSurfaces m) f with
  | Some [cl] =>
      match GmshApi.lookup (curveLoops m) cl with
      | Some loop => Orientation.corners m loop
      | None => None
      end
  | _ => None
  end.

(** Corners of the one face tagged [n]. *)
Definition tagged_face (m : model) (n : string)
  : option (list Orientation.vec) :=
  match Topology.tagged m 2 n with
  | [[f]] => face_corners m f
  | _ => None
  end.

(** Newell's normal of the one face tagged [n]: along the right-hand normal
    of its loop, of length twice its area. *)
Definition face_normal (m : model) (n : string) : option Orientation.vec :=
  option_map Orientation.normal (tagged_face m n).

(** Dimensions and tags of the physical groups, in creation order. *)
Definition group_keys (m : model) : list (Z * Z) :=
  map fst (physicalGroups m).

End Geometry.


(** The model a builder has built when it calls [mesh.generate] (its third
    engine call from the end): what the session holds if the engine stops
    there. It does not depend on what the mesher then does with it. *)
Definition handed_to_mesher (b : shape) : option model :=
  hd_error
    (models (final_session (build b (failing_at (engine_calls b - 3))))).

(** * Properties *)

(** Evaluation of a builder on given arguments, keeping the real-number
    expressions as the source wrote them. *)
Ltac eval_build :=
  cbv -[Rplus Rminus Rmult Rdiv Ropp Rinv Rlt Rle Rgt Rge IZR Q2R PI
        Rtrigo1.tan sqrt].

Ltac by_eval := eval_build; reflexivity.

(** ** The fixed angle of the fracture *)

Lemma radians_30 : Math.radians 30 = (PI / 6)%R.
Proof. unfold Math.radians. field. Qed.

Lemma tan_30 : Math.tan (Math.radians 30) = (1 / sqrt 3)%R.
Proof. unfold Math.tan. rewrite radians_30. apply tan_PI6. Qed.

Lemma sqrt3_bounds : (1 < sqrt 3 < 2)%R.
Proof.
  assert (H3 : (sqrt 3 * sqrt 3 = 3)%R) by (apply sqrt_sqrt; lra).
  assert (Hp : (0 <= sqrt 3)%R) by apply sqrt_pos.
  split; nra.
Qed.

Lemma tan_30_bounds : (1 / 2 < Math.tan (Math.radians 30) < 1)%R.
Proof.
  rewrite tan_30. destruct sqrt3_bounds as [Hlo Hhi].
  assert (Hi : (0 < / sqrt 3)%R) by (apply Rinv_0_lt_compat; lra).
  assert (He : (sqrt 3 * / sqrt 3 = 1)%R) by (apply Rinv_r; lra).
  unfold Rdiv. rewrite Rmult_1_l. split; nra.
Qed.

(** ** The rectangle builder *)

(** C9. For all [w], [h], [s] (in particular the valid ones, [w,h,s > 0]) the
    rectangle builder writes a model of exactly 4 points, 4 edges joining
    them in order, 1 closed edge loop over the 4 edges and 1 face on that
    loop; tag "domain" covers exactly the face and tags "top", "right",
    "bottom", "left" cover the 4 edges in traversal order; for [w = 2],
    [h = 1], [z0 = 0] the points are (0,0.5), (2,0.5), (2,-0.5), (0,-0.5)
    and "top" is the edge from (0,0.5) to (2,0.5). *)
Theorem rectangle_builder_output :
  (forall (f : Path) (w h s z : R),
      exists (m : model) (p1 p2 p3 p4 l1 l2 l3 l4 cl surf : Z),
        mesh_of (Rectangle f w h s z) = Some m /\
        map fst (points m) = [p1; p2; p3; p4] /\
        lines m = [(l1, (p1, p2)); (l2, (p2, p3));
                   (l3, (p3, p4)); (l4, (p4, p1))] /\
        curveLoops m = [(cl, [l1; l2; l3; l4])] /\
        Topology.closed_loop m [l1; l2; l3; l4] = true /\
        planeSurfaces m = [(surf, [cl])] /\
        Topology.tagged m 2 "domain" = [[surf]] /\
        Topology.tagged m 1 "top" = [[l1]] /\
        Topology.tagged m 1 "right" = [[l2]] /\
        Topology.tagged m 1 "bottom" = [[l3]] /\
        Topology.tagged m 1 "left" = [[l4]] /\
        Topology.tag_names m = ["domain"; "top"; "right"; "bottom"; "left"] /\
        List.length (physicalGroups m) = 5%nat)
  /\
  (forall (f : Path),
      exists (m : model) (top a b : Z),
        mesh_of (Rectangle f 2 1 0.1 0) = Some m /\
        map (fun q => (px (snd q), py (snd q))) (points m)
          = [(0, 0.5); (2, 0.5); (2, -0.5); (0, -0.5)]%R /\
        Topology.tagged m 1 "top" = [[top]] /\
        GmshApi.lookup (lines m) top = Some (a, b) /\
        Topology.coords m a = Some (0, 0.5, 0)%R /\
        Topology.coords m b = Some (2, 0.5, 0)%R).
Proof.
  split.
  - intros f w h s z.
    eexists; exists 1, 2, 3, 4, 1, 2, 3, 4, 1, 1.
    split; [by_eval|]. repeat split; reflexivity.
  - intros f. eexists; exists 1, 1, 2.
    split; [by_eval|].
    repeat split; try reflexivity.
    + eval_build. repeat f_equal; lra.
    + eval_build. repeat f_equal; lra.
    + eval_build. repeat f_equal; lra.
Qed.

(** ** The fractured-rectangle builder *)

(** The builder branches on [mode] only after the geometry is complete; a
    proof about the geometry looks at the three ways the test can go. *)
Ltac split_mode mode :=
  unfold mesh_of, written, build, create_rectangle_frac_mesh;
  destruct (String.eqb mode "BC");
  [| destruct (String.eqb mode "domain")].

(** C6. For every width [w] (in particular every valid one) and every center
    offset [z0], the fracture edge of the fractured-rectangle builder runs
    from the right endpoint at [x = w], [y = z0 + w * tan(30 deg) / 2] to the
    left endpoint at [x = 0], [y = z0 - w * tan(30 deg) / 2]; the angle is
    the constant 30 degrees ([PI / 6]), not an argument of the builder. *)
Theorem fracture_endpoints :
  forall (f : Path) (w h s z0 : R) (mode : string),
  exists (m : model) (fracture p_left p_right : Z),
    mesh_of (FracturedRectangle f w h s z0 mode) = Some m /\
    Topology.opposite_signs m fracture = true /\
    GmshApi.lookup (lines m) fracture = Some (p_right, p_left) /\
    Topology.coords m p_left
      = Some (0, z0 - w * Rtrigo1.tan (PI / 6) / 2, 0)%R /\
    Topology.coords m p_right
      = Some (w, z0 + w * Rtrigo1.tan (PI / 6) / 2, 0)%R /\
    Math.radians 30 = (PI / 6)%R.
Proof.
  intros f w h s z0 mode.
  split_mode mode;
    (eexists; exists 7, 5, 6; split; [by_eval|];
     repeat split; try reflexivity; try apply radians_30;
     eval_build; replace (30 * (PI / 180))%R with (PI / 6)%R by field;
     reflexivity).
Qed.

(** C7. For every input the fractured-rectangle builder builds exactly two
    edge loops and two faces, one face per loop, and the fracture edge (the
    line joining the two extra points, tagged "fracture" in "domain" mode) is
    referenced once by each loop with opposite signs: the first loop
    contains [- fracture], the second [+ fracture]. *)
Theorem fracture_shared_with_opposite_signs :
  (forall (f : Path) (w h s z0 : R) (mode : string),
      exists (m : model) (cl1 cl2 surf1 surf2 fracture p5 p6 : Z)
             (loop1 loop2 : list Z),
        mesh_of (FracturedRectangle f w h s z0 mode) = Some m /\
        curveLoops m = [(cl1, loop1); (cl2, loop2)] /\
        planeSurfaces m = [(surf1, [cl1]); (surf2, [cl2])] /\
        skipn 4 (map fst (points m)) = [p5; p6] /\
        GmshApi.lookup (lines m) fracture = Some (p6, p5) /\
        0 < fracture /\
        filter (fun e => Z.eqb (Z.abs e) fracture) loop1 = [- fracture] /\
        filter (fun e => Z.eqb (Z.abs e) fracture) loop2 = [fracture] /\
        filter (Topology.opposite_signs m) (map fst (lines m)) = [fracture])
  /\
  (forall (f : Path) (w h s z0 : R),
      exists (m : model) (fracture : Z),
        mesh_of (FracturedRectangle f w h s z0 "domain") = Some m /\
        Topology.tagged m 1 "fracture" = [[fracture]] /\
        Topology.opposite_signs m fracture = true).
Proof.
  split.
  - intros f w h s z0 mode.
    split_mode mode;
      (eexists; exists 1, 2, 1, 2, 7, 5, 6; do 2 eexists;
       split; [by_eval|]; cbn; repeat split; reflexivity).
  - intros f w h s z0. eexists; exists 7.
    split; [by_eval|]. split; reflexivity.
Qed.

(** ** All three builders *)

(** C8. In all three builders every edge loop a face is built from closes
    topologically: along its signed edges, each edge ends at the point where
    the next one starts, and the last ends where the first starts. Each
    builder makes one face per loop: 1, 2 and 6 faces. *)
Theorem edge_loops_close :
  forall (b : shape),
  exists (m : model),
    mesh_of b = Some m /\
    Topology.faces_closed m = true /\
    forallb (fun cl => Topology.closed_loop m (snd cl)) (curveLoops m) = true /\
    map snd (planeSurfaces m) = map (fun cl => [fst cl]) (curveLoops m) /\
    List.length (planeSurfaces m)
      = match b with
        | Rectangle _ _ _ _ _ => 1%nat
        | FracturedRectangle _ _ _ _ _ _ => 2%nat
        | Cube _ _ _ _ _ _ => 6%nat
        end.
Proof.
  intros [f w h s z | f w h s z mode | f w h t s z].
  - eexists; split; [by_eval|]. repeat split; reflexivity.
  - split_mode mode;
      (eexists; split; [by_eval|]; repeat split; reflexivity).
  - eexists; split; [by_eval|]. repeat split; reflexivity.
Qed.

(** C10. The center offset [center_z] moves different axes in different
    builders. In the two planar builders every point has third coordinate
    exactly 0 and [center_z] is added to the second one (corners at
    [center_z + height / 2] and [center_z - height / 2]); only the prism
    builder puts [center_z] into the third coordinate (layers at
    [center_z - thickness / 2] and [center_z + thickness / 2]), its first two
    coordinates being free of it. *)
Theorem center_offset_axis :
  (forall (f : Path) (w h s center_z : R),
      exists (m : model),
        mesh_of (Rectangle f w h s center_z) = Some m /\
        map (fun q => (px (snd q), py (snd q), pz (snd q))) (points m)
          = [(0, center_z + h / 2, 0); (w, center_z + h / 2, 0);
             (w, center_z - h / 2, 0); (0, center_z - h / 2, 0)]%R)
  /\
  (forall (f : Path) (w h s center_z : R) (mode : string),
      exists (m : model),
        mesh_of (FracturedRectangle f w h s center_z mode) = Some m /\
        map (fun q => (px (snd q), py (snd q), pz (snd q))) (points m)
          = [(0, center_z + h / 2, 0); (w, center_z + h / 2, 0);
             (w, center_z - h / 2, 0); (0, center_z - h / 2, 0);
             (0, center_z - w * Math.tan (Math.radians 30) / 2, 0);
             (w, center_z + w * Math.tan (Math.radians 30) / 2, 0)]%R)
  /\
  (forall (f : Path) (w h t s center_z : R),
      exists (m : model),
        mesh_of (Cube f w h t s center_z) = Some m /\
        map (fun q => (px (snd q), py (snd q), pz (snd q))) (points m)
          = [(0, 0, center_z - t / 2); (w, 0, center_z - t / 2);
             (w, h, center_z - t / 2); (0, h, center_z - t / 2);
             (0, 0, center_z + t / 2); (w, 0, center_z + t / 2);
             (w, h, center_z + t / 2); (0, h, center_z + t / 2)]%R).
Proof.
  split; [|split].
  - intros f w h s center_z. eexists; split; [by_eval|]. reflexivity.
  - intros f w h s center_z mode.
    split_mode mode; (eexists; split; [by_eval|]; reflexivity).
  - intros f w h t s center_z. eexists; split; [by_eval|]. reflexivity.
Qed.

(** ** The prism builder *)

(** The prism's faces by name, with the orientation of each loop against the
    body: [32 * w * h * t] up to sign. *)
Lemma cube_face_outwardness :
  forall (f : Path) (w h t s z : R),
  exists (m : model),
    mesh_of (Cube f w h t s z) = Some m /\
    Orientation.face_outwardness m "top" = Some (32 * (w * h * t))%R /\
    Orientation.face_outwardness m "front" = Some (32 * (w * h * t))%R /\
    Orientation.face_outwardness m "left" = Some (32 * (w * h * t))%R /\
    Orientation.face_outwardness m "bottom" = Some (- (32 * (w * h * t)))%R /\
    Orientation.face_outwardness m "back" = Some (- (32 * (w * h * t)))%R /\
    Orientation.face_outwardness m "right" = Some (- (32 * (w * h * t)))%R.
Proof.
  intros f w h t s z. eexists; split; [by_eval|].
  repeat split; eval_build; f_equal; field.
Qed.

Lemma volume_positive :
  forall w h t : R, (0 < w -> 0 < h -> 0 < t -> 0 < 32 * (w * h * t))%R.
Proof.
  intros w h t Hw Hh Ht.
  apply Rmult_lt_0_compat; [lra|].
  apply Rmult_lt_0_compat; [|assumption].
  apply Rmult_lt_0_compat; assumption.
Qed.

(** Counterexample to C1 as stated: in the unit prism, edge [l1] is
    referenced by the bottom loop and by the front loop with the same sign,
    and the bottom face's normal points into the body. *)
Lemma cube_shell_signs_counterexample :
  exists (m : model) (v : R),
    mesh_of (Cube sample_path 1 1 1 0.1 0) = Some m /\
    Topology.references m 1 = [(1, [1]); (3, [1])] /\
    Topology.opposite_signs m 1 = false /\
    Orientation.face_outwardness m "bottom" = Some v /\
    (v < 0)%R.
Proof.
  destruct (cube_face_outwardness sample_path 1 1 1 0.1 0)
    as (m & Hm & _ & _ & _ & Hbot & _).
  exists m, (- (32 * (1 * 1 * 1)))%R.
  split; [exact Hm|].
  assert (Hm' : mesh_of (Cube sample_path 1 1 1 0.1 0) = Some m) by exact Hm.
  revert Hm'. eval_build. intros Hm'. injection Hm' as <-.
  repeat split; try reflexivity; try exact Hbot. lra.
Qed.

(** C1, as the code has it. For every [w], [h], [t], [s] the prism builder
    makes 12 edges and 6 edge loops, and each edge is referenced by exactly 2
    of the loops, once by each. The two references have opposite signs for 6
    of the edges ([l2], [l3], [l5], [l8], [l9], [l11]) and the same sign for
    the other 6 ([l1], [l4], [l6], [l7], [l10], [l12]): opposite faces are
    traversed in the same sense. The loops of top, front and left have the
    orientation [v = 32 * w * h * t] against the body and those of bottom,
    back and right have [- v]; so for [w, h, t > 0], by the right-hand rule,
    the normals of top, front and left point out of the body and those of
    bottom, back and right point into it. *)
Theorem cube_edges_in_two_loops :
  forall (f : Path) (w h t s z : R),
  exists (m : model) (v : R),
    mesh_of (Cube f w h t s z) = Some m /\
    map fst (lines m) = [1; 2; 3; 4; 5; 6; 7; 8; 9; 10; 11; 12] /\
    List.length (curveLoops m) = 6%nat /\
    forallb (Topology.in_two_loops m) (map fst (lines m)) = true /\
    filter (Topology.opposite_signs m) (map fst (lines m))
      = [2; 3; 5; 8; 9; 11] /\
    filter (Topology.equal_signs m) (map fst (lines m))
      = [1; 4; 6; 7; 10; 12] /\
    Orientation.face_outwardness m "top" = Some v /\
    Orientation.face_outwardness m "front" = Some v /\
    Orientation.face_outwardness m "left" = Some v /\
    Orientation.face_outwardness m "bottom" = Some (- v)%R /\
    Orientation.face_outwardness m "back" = Some (- v)%R /\
    Orientation.face_outwardness m "right" = Some (- v)%R /\
    v = (32 * (w * h * t))%R /\
    ((0 < w)%R -> (0 < h)%R -> (0 < t)%R -> (0 < v)%R /\ (- v < 0)%R).
Proof.
  intros f w h t s z.
  destruct (cube_face_outwardness f w h t s z)
    as (m & Hm & Htop & Hfront & Hleft & Hbot & Hback & Hright).
  exists m, (32 * (w * h * t))%R.
  split; [exact Hm|].
  assert (Hm' : mesh_of (Cube f w h t s z) = Some m) by exact Hm.
  revert Hm'. eval_build. intros Hm'. injection Hm' as <-.
  repeat (split; [reflexivity || assumption|]).
  intros Hw Hh Ht.
  pose proof (volume_positive w h t Hw Hh Ht) as Hv. split; lra.
Qed.

Lemma cube_edges_in_two_loops_witness :
  exists (m : model) (v : R),
    mesh_of (Cube sample_path 2 1 3 0.1 0) = Some m /\
    forallb (Topology.in_two_loops m) (map fst (lines m)) = true /\
    filter (Topology.opposite_signs m) (map fst (lines m))
      = [2; 3; 5; 8; 9; 11] /\
    filter (Topology.equal_signs m) (map fst (lines m))
      = [1; 4; 6; 7; 10; 12] /\
    Orientation.face_outwardness m "top" = Some v /\
    Orientation.face_outwardness m "bottom" = Some (- v)%R /\
    (0 < v)%R /\ (- v < 0)%R.
Proof.
  destruct (cube_edges_in_two_loops sample_path 2 1 3 0.1 0)
    as (m & v & Hm & _ & _ & Htwo & Hopp & Heq & Htop & _ & _ & Hbot
        & _ & _ & _ & Hsign).
  exists m, v.
  repeat (split; [assumption|]).
  apply Hsign; lra.
Defined.

(** ** Which exceptions a builder can raise *)

Section NeverRaises.

(** An exception that is neither the engine's nor an index error. *)
Variable e : exn.
Hypothesis not_engine : exn_eqb EngineFailure e = false.
Hypothesis not_index : exn_eqb IndexError e = false.

Lemma never_ret : forall (A : Type) (a : A), never_raises e (ret a).
Proof. intros A a s. reflexivity. Qed.

Lemma never_bind :
  forall (A B : Type) (c : Py A) (k : A -> Py B),
    never_raises e c -> (forall a, never_raises e (k a)) ->
    never_raises e (bind c k).
Proof.
  intros A B c k Hc Hk s. cbn. unfold Py_bind.
  specialize (Hc s). destruct (c s) as [a s' | e' s'].
  - apply Hk.
  - exact Hc.
Qed.

Lemma never_call :
  forall (A : Type) (f : session -> option (A * session)),
    never_raises e (GmshApi.call f).
Proof.
  intros A f s. unfold GmshApi.call.
  destruct (fault s) as [[|k]|]; cbn; try exact not_engine.
  - destruct (initialized s); [|exact not_engine].
    destruct (f _) as [[a s2]|]; [reflexivity|exact not_engine].
  - destruct (initialized s); [|exact not_engine].
    destruct (f _) as [[a s2]|]; [reflexivity|exact not_engine].
Qed.

Lemma never_on_model :
  forall (A : Type) (f : model -> option (A * model)),
    never_raises e (GmshApi.on_model f).
Proof. intros A f. apply never_call. Qed.

Lemma never_initialize : never_raises e GmshApi.initialize.
Proof.
  intros s. unfold GmshApi.initialize.
  destruct (fault s) as [[|k]|]; cbn; try reflexivity. exact not_engine.
Qed.

Lemma never_getitem :
  forall (A : Type) (xs : list A) (i : nat), never_raises e (getitem xs i).
Proof.
  intros A xs i s. unfold getitem.
  destruct (nth_error xs i); [reflexivity|exact not_index].
Qed.

Lemma never_for_each :
  forall (A : Type) (xs : list A) (body : A -> Py unit),
    (forall x, never_raises e (body x)) -> never_raises e (for_each xs body).
Proof.
  intros A xs body Hb. induction xs as [|x rest IH]; simpl.
  - apply never_ret.
  - apply never_bind; [apply Hb|intros _; exact IH].
Qed.

Lemma never_comprehension :
  forall (A B : Type) (xs : list A) (f : A -> Py B),
    (forall x, never_raises e (f x)) -> never_raises e (comprehension xs f).
Proof.
  intros A B xs f Hf. induction xs as [|x rest IH]; simpl.
  - apply never_ret.
  - apply never_bind; [apply Hf|intros y].
    apply never_bind; [exact IH|intros ys; apply never_ret].
Qed.

(** Walks through a builder, statement by statement. *)
Ltac walk :=
  repeat first
    [ apply never_bind; [|intro]
    | apply never_ret
    | apply never_initialize
    | apply never_getitem
    | apply never_on_model
    | apply never_call
    | apply never_for_each; intros [? ?]
    | apply never_comprehension; intros [[? ?] ?] ].

Lemma never_rectangle :
  forall (f : Path) (w h s z : R),
    never_raises e (create_rectangle_mesh f w h s z).
Proof. intros. unfold create_rectangle_mesh. cbv zeta. walk. Qed.

Lemma never_fractured :
  forall (f : Path) (w h s z : R) (mode : string),
    never_raises e (create_rectangle_frac_mesh f w h s z mode).
Proof.
  intros. unfold create_rectangle_frac_mesh. cbv zeta.
  destruct (String.eqb mode "BC"); [|destruct (String.eqb mode "domain")];
    walk.
Qed.

Lemma never_cube :
  forall (f : Path) (w h t s z : R),
    never_raises e (create_cube_mesh f w h t s z).
Proof. intros. unfold create_cube_mesh. cbv zeta. walk. Qed.

End NeverRaises.

(** No builder validates its arguments: none can raise [InvalidParameter]. *)
Lemma no_parameter_check :
  forall (b : shape) (s : session), raises InvalidParameter (build b s) = false.
Proof.
  intros [f w h s z | f w h s z mode | f w h t s z] st; simpl.
  - apply never_rectangle; reflexivity.
  - apply never_fractured; reflexivity.
  - apply never_cube; reflexivity.
Qed.

(** ** Arguments the specification calls invalid *)

(** Counterexample to C2 as stated: with [w = -1] the rectangle builder
    raises nothing, builds its four points (two of them at [x = -1]) and
    writes the mesh file. *)
Lemma rectangle_negative_width_counterexample :
  exists (m : model),
    create_rectangle_mesh sample_path (-1) 1 0.1 0 fresh
      = Returned tt {| initialized := false; options := []; models := [];
                       files := [("meshes/shape.msh", m)]; fault := None |} /\
    raises InvalidParameter
           (create_rectangle_mesh sample_path (-1) 1 0.1 0 fresh) = false /\
    map (fun q => px (snd q)) (points m) = [0; -1; -1; 0]%R /\
    meshDim m = Some 2.
Proof. eexists. split; [by_eval|]. repeat split; reflexivity. Qed.

(** C2, as the code has it. The rectangle builder does not check [w], [h] or
    [s]: in no session and for no arguments, positive or not, does it fail
    with [InvalidParameter]; when the engine accepts its calls it returns,
    having built the four corners from the arguments as they are and written
    the meshed model to the output file. *)
Theorem rectangle_builder_unvalidated :
  forall (f : Path) (w h s z : R),
    (forall st : session,
        raises InvalidParameter (create_rectangle_mesh f w h s z st) = false)
    /\
    exists (m : model),
      create_rectangle_mesh f w h s z fresh
        = Returned tt {| initialized := false; options := []; models := [];
                         files := [(str (with_suffix f ".msh"), m)];
                         fault := None |} /\
      map (fun q => (px (snd q), py (snd q), psize (snd q))) (points m)
        = [(0, z + h / 2, s); (w, z + h / 2, s);
           (w, z - h / 2, s); (0, z - h / 2, s)]%R /\
      List.length (planeSurfaces m) = 1%nat /\
      meshDim m = Some 2.
Proof.
  intros f w h s z. split.
  - intros st. apply (no_parameter_check (Rectangle f w h s z)).
  - eexists. split; [by_eval|]. repeat split; reflexivity.
Qed.

(** Counterexample to C4 as stated: with the mode "fracture" the
    fractured-rectangle builder raises nothing and writes a meshed model
    that has no physical group at all. *)
Lemma unknown_mode_counterexample :
  exists (m : model),
    create_rectangle_frac_mesh sample_path 2 2 0.1 0 "fracture" fresh
      = Returned tt {| initialized := false; options := []; models := [];
                       files := [("meshes/shape.msh", m)]; fault := None |} /\
    raises InvalidParameter
           (create_rectangle_frac_mesh sample_path 2 2 0.1 0 "fracture" fresh)
      = false /\
    physicalGroups m = [] /\
    Topology.tag_names m = [] /\
    meshDim m = Some 2.
Proof. eexists. split; [by_eval|]. repeat split; reflexivity. Qed.

(** C4, as the code has it. With a mode other than "domain" and "BC" the
    fractured-rectangle builder does not fail with [InvalidParameter] (in no
    session); when the engine accepts its calls it returns, having built the
    same geometry as in the other modes (6 points, 7 edges, 2 closed loops,
    2 faces), created no physical group and no name, and written the meshed,
    untagged model to the output file. *)
Theorem unknown_mode_leaves_shape_untagged :
  forall (f : Path) (w h s z : R) (mode : string),
    mode <> "BC" -> mode <> "domain" ->
    (forall st : session,
        raises InvalidParameter
               (create_rectangle_frac_mesh f w h s z mode st) = false)
    /\
    exists (m : model),
      create_rectangle_frac_mesh f w h s z mode fresh
        = Returned tt {| initialized := false; options := []; models := [];
                         files := [(str (with_suffix f ".msh"), m)];
                         fault := None |} /\
      physicalGroups m = [] /\
      physicalNames m = [] /\
      List.length (points m) = 6%nat /\
      List.length (lines m) = 7%nat /\
      List.length (curveLoops m) = 2%nat /\
      List.length (planeSurfaces m) = 2%nat /\
      Topology.faces_closed m = true /\
      meshDim m = Some 2.
Proof.
  intros f w h s z mode Hbc Hdom. split.
  - intros st. apply (no_parameter_check (FracturedRectangle f w h s z mode)).
  - apply String.eqb_neq in Hbc, Hdom.
    unfold create_rectangle_frac_mesh. rewrite Hbc, Hdom.
    eexists. split; [by_eval|]. repeat split; reflexivity.
Qed.

Lemma unknown_mode_leaves_shape_untagged_witness :
  "boundary" <> "BC" /\ "boundary" <> "domain" /\
  (forall st : session,
      raises InvalidParameter
             (create_rectangle_frac_mesh sample_path 1 1 0.1 0 "boundary" st)
        = false) /\
  exists (m : model),
    create_rectangle_frac_mesh sample_path 1 1 0.1 0 "boundary" fresh
      = Returned tt {| initialized := false; options := []; models := [];
                       files := [(str (with_suffix sample_path ".msh"), m)];
                       fault := None |} /\
    physicalGroups m = [] /\
    physicalNames m = [] /\
    List.length (points m) = 6%nat /\
    List.length (lines m) = 7%nat /\
    List.length (curveLoops m) = 2%nat /\
    List.length (planeSurfaces m) = 2%nat /\
    Topology.faces_closed m = true /\
    meshDim m = Some 2.
Proof.
  split; [discriminate|]. split; [discriminate|].
  apply (unknown_mode_leaves_shape_untagged sample_path 1 1 0.1 0 "boundary");
    discriminate.
Defined.

(** ** Where the fracture meets the sides *)

(** C3 at [w = 2], [h = 1], [center_z = 0] (mode "BC"). The model handed to
    the mesher has the right fracture end point [p6] at [x = 2] but above
    the upper right corner [p2], and the left one [p5] at [x = 0] but below
    the lower left corner [p4]: the end points are not on the rectangle's
    vertical edges. The builder nevertheless joins [p6] to [p2] and [p5] to
    [p4] and tags these lines, with the ones up to the end points, "right"
    and "left". *)
Theorem fracture_end_points_off_the_sides :
  exists (m : model) (y_top y_bottom y_left y_right : R),
    handed_to_mesher (FracturedRectangle sample_path 2 1 0.1 0 "BC")
      = Some m /\
    Topology.coords m 2 = Some (2, y_top, 0)%R /\
    Topology.coords m 4 = Some (0, y_bottom, 0)%R /\
    Topology.coords m 5 = Some (0, y_left, 0)%R /\
    Topology.coords m 6 = Some (2, y_right, 0)%R /\
    y_top = (1 / 2)%R /\
    y_bottom = (- (1 / 2))%R /\
    (y_top < y_right)%R /\
    (y_left < y_bottom)%R /\
    Topology.tagged m 1 "right" = [[5; 6]] /\
    Topology.tagged m 1 "left" = [[2; 3]] /\
    GmshApi.lookup (lines m) 6 = Some (6, 2) /\
    GmshApi.lookup (lines m) 3 = Some (5, 4) /\
    meshDim m = None.
Proof.
  eexists.
  exists (0 + 1 / 2)%R, (0 - 1 / 2)%R,
    (0 - 2 * Math.tan (Math.radians 30) / 2)%R,
    (0 + 2 * Math.tan (Math.radians 30) / 2)%R.
  split; [by_eval|].
  pose proof tan_30_bounds as Hb.
  repeat split; try reflexivity; lra.
Qed.

(** ** Failures of the engine *)

(** Whatever an earlier call left in the session, live or not, a builder
    starts a model of its own and is not affected by it. *)
Lemma build_in_any_session :
  forall (b : shape) (s : session), fault s = None -> clean_run b s.
Proof.
  intros b [ini opts ms fs fl] Hfl. simpl in Hfl. subst fl.
  unfold clean_run.
  destruct b as [f w h sz z | f w h sz z mode | f w h t sz z].
  - destruct ini; by_eval.
  - split_mode mode; destruct ini; by_eval.
  - destruct ini; by_eval.
Qed.

(** Counterexample to C5 as stated: when mesh generation fails in the
    rectangle builder (its 29th engine call), the exception leaves the
    builder with the engine session still initialised and holding the built,
    unmeshed model. *)
Lemma generate_failure_counterexample :
  exists (s' : session) (m : model) (rest : list model),
    create_rectangle_mesh sample_path 2 1 0.1 0 (failing_at 28)
      = Raised EngineFailure s' /\
    initialized s' = true /\
    models s' = m :: rest /\
    List.length (points m) = 4%nat /\
    Topology.tag_names m = ["domain"; "top"; "right"; "bottom"; "left"] /\
    meshDim m = None /\
    files s' = [].
Proof.
  do 3 eexists. split; [by_eval|]. cbn.
  split; [reflexivity|]. split; [reflexivity|].
  repeat split; reflexivity.
Qed.

(** One position of the injected failure. *)
Ltac failure_case :=
  split; [vm_compute; reflexivity|];
  split; [vm_compute; reflexivity|];
  split; [vm_compute; reflexivity|];
  split; [vm_compute; reflexivity|];
  intros b'; apply build_in_any_session; reflexivity.

(** C5, as the code has it. Let the engine reject the call number [k]
    (counted from 0) of a builder that makes [n] engine calls. If [k < n] the
    rejection propagates out of the builder as the engine's exception and no
    later engine call is made: no output file is written, unless the
    rejected call is the last one (finalize), which comes after the complete
    file was written. The session is released on the success path only:
    after a failure of any call but the first (initialize) it stays
    initialised. A subsequent builder call is not corrupted by what is left
    in the session: it runs as from a fresh session and writes the same
    file. *)
Theorem engine_failure_keeps_session_open :
  forall (b : shape) (k : nat),
    raised (build b (failing_at k))
      = (if (engine_calls b <=? k)%nat then None else Some EngineFailure) /\
    files (final_session (build b (failing_at k)))
      = (if (engine_calls b - 1 <=? k)%nat then written b fresh else []) /\
    List.length (written b fresh) = 1%nat /\
    initialized (final_session (build b (failing_at k)))
      = ((0 <? k)%nat && (k <? engine_calls b)%nat) /\
    (forall b' : shape,
        clean_run b'
          (GmshApi.with_fault None (final_session (build b (failing_at k))))).
Proof.
  intros [f w h s z | f w h s z mode | f w h t s z] k.
  - do 31 (destruct k as [|k]; [failure_case|]). failure_case.
  - unfold engine_calls, written, build, create_rectangle_frac_mesh.
    destruct (String.eqb mode "BC");
      [|destruct (String.eqb mode "domain")].
    + do 35 (destruct k as [|k]; [failure_case|]). failure_case.
    + do 31 (destruct k as [|k]; [failure_case|]). failure_case.
    + do 28 (destruct k as [|k]; [failure_case|]). failure_case.
  - do 65 (destruct k as [|k]; [failure_case|]). failure_case.
Qed.

(** * Further properties of the builders *)

(** ** The only exception is the engine's *)






(** ** One call after another *)



(** ** What the names of the tags stand for *)

(** X3. In the rectangle builder the side names match the geometry, for all
    arguments: "top" is the edge from [(0, z + h/2)] to [(w, z + h/2)],
    "right" the edge down the line [x = w], "bottom" the edge back along
    [y = z - h/2], "left" the edge up the line [x = 0], and "domain" is the
    face with these four corners. Each side is one edge and its own group:
    five groups in all, one of dimension 2 and four of dimension 1, with the
    tags 1 to 5 in the order they are made. *)
Theorem rectangle_names_match_sides :
  forall (f : Path) (w h s z : R),
  exists (m : model),
    mesh_of (Rectangle f w h s z) = Some m /\
    Geometry.tagged_edges m "top"
      = [Some ((0, z + h / 2, 0), (w, z + h / 2, 0))]%R /\
    Geometry.tagged_edges m "right"
      = [Some ((w, z + h / 2, 0), (w, z - h / 2, 0))]%R /\
    Geometry.tagged_edges m "bottom"
      = [Some ((w, z - h / 2, 0), (0, z - h / 2, 0))]%R /\
    Geometry.tagged_edges m "left"
      = [Some ((0, z - h / 2, 0), (0, z + h / 2, 0))]%R /\
    Geometry.tagged_face m "domain"
      = Some [(0, z + h / 2, 0); (w, z + h / 2, 0);
              (w, z - h / 2, 0); (0, z - h / 2, 0)]%R /\
    Geometry.group_keys m = [(2, 1); (1, 2); (1, 3); (1, 4); (1, 5)].
Proof.
  intros f w h s z. eexists; split; [by_eval|]. repeat split; reflexivity.
Qed.

(** X4. In "BC" mode the fractured-rectangle builder tags the whole outer
    boundary and nothing else. "top" and "bottom" are one edge each, along
    [y = z + h/2] and [y = z - h/2]; "right" is the two edges on [x = w]
    that meet at the right fracture end point, "left" the two edges on
    [x = 0] that meet at the left one; "p4" is the single point
    [(0, z - h/2)]. The six tagged edges are all lines but the fracture, each
    tagged once; no face is tagged and the fracture edge is in no group. *)
Theorem bc_mode_tags_outer_boundary :
  forall (f : Path) (w h s z : R),
  exists (m : model) (d : R),
    mesh_of (FracturedRectangle f w h s z "BC") = Some m /\
    d = (w * Math.tan (Math.radians 30) / 2)%R /\
    Geometry.tagged_edges m "top"
      = [Some ((w, z + h / 2, 0), (0, z + h / 2, 0))]%R /\
    Geometry.tagged_edges m "bottom"
      = [Some ((0, z - h / 2, 0), (w, z - h / 2, 0))]%R /\
    Geometry.tagged_edges m "right"
      = [Some ((w, z - h / 2, 0), (w, z + d, 0));
         Some ((w, z + d, 0), (w, z + h / 2, 0))]%R /\
    Geometry.tagged_edges m "left"
      = [Some ((0, z + h / 2, 0), (0, z - d, 0));
         Some ((0, z - d, 0), (0, z - h / 2, 0))]%R /\
    Geometry.tagged_points m "p4" = [Some (0, z - h / 2, 0)%R] /\
    Topology.tag_names m = ["top"; "bottom"; "right"; "left"; "p4"] /\
    Geometry.group_keys m = [(1, 1); (1, 2); (1, 3); (1, 4); (0, 5)] /\
    List.concat
      (map snd (filter (fun g => Z.eqb (fst (fst g)) 1) (physicalGroups m)))
      = [1; 4; 5; 6; 2; 3] /\
    map fst (lines m) = [1; 2; 3; 4; 5; 6; 7] /\
    Topology.opposite_signs m 7 = true.
Proof.
  intros f w h s z. eexists; eexists.
  split; [by_eval|]. split; [reflexivity|].
  repeat split; reflexivity.
Qed.

(** X5. In "domain" mode the fractured-rectangle builder tags the two faces
    and the fracture and nothing else: "top_surf" is the face whose corners
    are the two upper corners and the two fracture end points, "bot_surf"
    the face with the two lower corners and the fracture end points, and
    "fracture" is the one edge from the right end point to the left one. No
    outer edge and no point is in a group. *)
Theorem domain_mode_tags_faces_and_fracture :
  forall (f : Path) (w h s z : R),
  exists (m : model) (d : R),
    mesh_of (FracturedRectangle f w h s z "domain") = Some m /\
    d = (w * Math.tan (Math.radians 30) / 2)%R /\
    Geometry.tagged_face m "top_surf"
      = Some [(w, z + h / 2, 0); (0, z + h / 2, 0);
              (0, z - d, 0); (w, z + d, 0)]%R /\
    Geometry.tagged_face m "bot_surf"
      = Some [(0, z - h / 2, 0); (w, z - h / 2, 0);
              (w, z + d, 0); (0, z - d, 0)]%R /\
    Geometry.tagged_edges m "fracture"
      = [Some ((w, z + d, 0), (0, z - d, 0))]%R /\
    Topology.tag_names m = ["top_surf"; "bot_surf"; "fracture"] /\
    Geometry.group_keys m = [(2, 1); (2, 2); (1, 3)] /\
    map snd (physicalGroups m) = [[1]; [2]; [7]].
Proof.
  intros f w h s z. eexists; eexists.
  split; [by_eval|]. split; [reflexivity|].
  repeat split; reflexivity.
Qed.

(** X6. For all arguments the prism builder makes 8 points, 12 edges, 6 edge
    loops, 6 faces (the i-th face on the i-th loop), one face loop over all
    6 faces and one volume on that face loop. Its tags cover everything:
    "points" all 8 points, "edges" all 12 edges, each of "bottom", "top",
    "front", "back", "left", "right" exactly one face (six different ones),
    and "volume" the volume. *)
Theorem cube_entities_and_tags :
  forall (f : Path) (w h t s z : R),
  exists (m : model),
    mesh_of (Cube f w h t s z) = Some m /\
    map fst (points m) = [1; 2; 3; 4; 5; 6; 7; 8] /\
    map fst (lines m) = [1; 2; 3; 4; 5; 6; 7; 8; 9; 10; 11; 12] /\
    map fst (curveLoops m) = [1; 2; 3; 4; 5; 6] /\
    planeSurfaces m = [(1, [1]); (2, [2]); (3, [3]);
                       (4, [4]); (5, [5]); (6, [6])] /\
    surfaceLoops m = [(1, [1; 2; 3; 4; 5; 6])] /\
    volumes m = [(1, [1])] /\
    Topology.tagged m 0 "points" = [map fst (points m)] /\
    Topology.tagged m 1 "edges" = [map fst (lines m)] /\
    map (Topology.tagged m 2)
        ["bottom"; "top"; "front"; "back"; "left"; "right"]
      = [[[1]]; [[2]]; [[3]]; [[4]]; [[5]]; [[6]]] /\
    Topology.tagged m 3 "volume" = [[1]] /\
    Topology.tag_names m
      = ["points"; "edges"; "bottom"; "top"; "front"; "back"; "left";
         "right"; "volume"] /\
    List.length (physicalGroups m) = 9%nat.
Proof.
  intros f w h t s z. eexists; split; [by_eval|]. repeat split; reflexivity.
Qed.

(** X7. The prism's face names match the geometry, for all arguments: the
    four corners of "bottom" lie in the plane [z = center_z - t/2], those of
    "top" in [z = center_z + t/2], those of "front" in [y = 0], of "back" in
    [y = h], of "left" in [x = 0] and of "right" in [x = w]. *)
Theorem cube_names_match_planes :
  forall (f : Path) (w h t s center_z : R),
  exists (m : model) (z0 z1 : R),
    mesh_of (Cube f w h t s center_z) = Some m /\
    z0 = (center_z - t / 2)%R /\
    z1 = (center_z + t / 2)%R /\
    Geometry.tagged_face m "bottom"
      = Some [(0, 0, z0); (w, 0, z0); (w, h, z0); (0, h, z0)]%R /\
    Geometry.tagged_face m "top"
      = Some [(0, 0, z1); (w, 0, z1); (w, h, z1); (0, h, z1)]%R /\
    Geometry.tagged_face m "front"
      = Some [(0, 0, z0); (w, 0, z0); (w, 0, z1); (0, 0, z1)]%R /\
    Geometry.tagged_face m "back"
      = Some [(0, h, z0); (w, h, z0); (w, h, z1); (0, h, z1)]%R /\
    Geometry.tagged_face m "left"
      = Some [(0, 0, z0); (0, 0, z1); (0, h, z1); (0, h, z0)]%R /\
    Geometry.tagged_face m "right"
      = Some [(w, 0, z0); (w, 0, z1); (w, h, z1); (w, h, z0)]%R.
Proof.
  intros f w h t s center_z. eexists; eexists; eexists.
  split; [by_eval|]. split; [reflexivity|]. split; [reflexivity|].
  repeat split; reflexivity.
Qed.

(** ** Areas and traversal sense *)

(** Two vectors are equal when their components are equal as field
    expressions. *)
Ltac vec_eq :=
  apply f_equal; apply f_equal2; [apply f_equal2|]; field.

(** X8. For all arguments Newell's sum over the loop of "top_surf" and over
    the loop of "bot_surf" is the same vector [(0, 0, w * h)], whatever the
    offset of the fracture end points. Where the two loops are simple
    polygons (the end points within the sides) this is twice the area and the
    sense of traversal: two faces of area [w * h / 2] each, both
    counter-clockwise for [w * h > 0]. Where the end points leave the sides
    the loops cross themselves and the sum is no area. *)
Theorem fracture_loops_newell_sum :
  forall (f : Path) (w h s z : R),
  exists (m : model),
    mesh_of (FracturedRectangle f w h s z "domain") = Some m /\
    Geometry.face_normal m "top_surf" = Some (0, 0, w * h)%R /\
    Geometry.face_normal m "bot_surf" = Some (0, 0, w * h)%R.
Proof.
  intros f w h s z. eexists; split; [by_eval|].
  split; eval_build; vec_eq.
Qed.

(** X9. The plain rectangle's loop runs the other way round: for all
    arguments Newell's normal of "domain" is [(0, 0, - (2 * (w * h)))], that
    is area [w * h] traversed clockwise (top edge left to right, then down
    the right side) for [w * h > 0]. *)
Theorem rectangle_loop_is_clockwise :
  forall (f : Path) (w h s z : R),
  exists (m : model),
    mesh_of (Rectangle f w h s z) = Some m /\
    Geometry.face_normal m "domain" = Some (0, 0, - (2 * (w * h)))%R.
Proof.
  intros f w h s z. eexists; split; [by_eval|].
  eval_build; vec_eq.
Qed.

(** X10. In the prism, opposite faces have the same Newell normal, not
    opposite ones: [(0, 0, 2wh)] for "bottom" and "top", [(0, -2wt, 0)] for
    "front" and "back", [(-2ht, 0, 0)] for "left" and "right". The face
    areas are thus [w * h], [w * t] and [h * t]. *)
Theorem cube_opposite_faces_share_normal :
  forall (f : Path) (w h t s z : R),
  exists (m : model),
    mesh_of (Cube f w h t s z) = Some m /\
    Geometry.face_normal m "bottom" = Some (0, 0, 2 * (w * h))%R /\
    Geometry.face_normal m "top" = Some (0, 0, 2 * (w * h))%R /\
    Geometry.face_normal m "front" = Some (0, - (2 * (w * t)), 0)%R /\
    Geometry.face_normal m "back" = Some (0, - (2 * (w * t)), 0)%R /\
    Geometry.face_normal m "left" = Some (- (2 * (h * t)), 0, 0)%R /\
    Geometry.face_normal m "right" = Some (- (2 * (h * t)), 0, 0)%R.
Proof.
  intros f w h t s z. eexists; split; [by_eval|].
  repeat split; eval_build; vec_eq.
Qed.

(** ** Sizes of zero *)




(** ** What the engine is given when it is asked to mesh *)

(** X14. At the call of [mesh.generate] (observed by letting that call fail:
    it is the third engine call from the end) every builder has set the
    verbosity to 0 and both characteristic-length bounds to [mesh_size], has
    given every point the local size [mesh_size], has synchronized all it
    built and has all its physical groups and names in place, while nothing
    is meshed yet. [mesh_size] is used as given, zero or negative values
    included. *)
Theorem mesh_size_at_generation :
  forall (b : shape),
  exists (s' : session) (m : model) (rest : list model) (size : R) (n : nat),
    build b (failing_at (engine_calls b - 3)) = Raised EngineFailure s' /\
    size = match b with
           | Rectangle _ _ _ sz _ => sz
           | FracturedRectangle _ _ _ sz _ _ => sz
           | Cube _ _ _ _ sz _ => sz
           end /\
    n = match b with
        | Rectangle _ _ _ _ _ => 4%nat
        | FracturedRectangle _ _ _ _ _ _ => 6%nat
        | Cube _ _ _ _ _ _ => 8%nat
        end /\
    options s' = [("General.Verbosity", 0%R);
                  ("Mesh.CharacteristicLengthMin", size);
                  ("Mesh.CharacteristicLengthMax", size)] /\
    models s' = m :: rest /\
    map (fun q => psize (snd q)) (points m) = repeat size n /\
    synchronized m = true /\
    meshDim m = None /\
    Some (physicalGroups m) = option_map physicalGroups (mesh_of b) /\
    Some (physicalNames m) = option_map physicalNames (mesh_of b).
Proof.
  intros [f w h s z | f w h s z mode | f w h t s z].
  - do 5 eexists. split; [by_eval|].
    split; [reflexivity|]. split; [reflexivity|].
    repeat split; reflexivity.
  - unfold engine_calls. split_mode mode;
      (do 5 eexists; split; [by_eval|];
       split; [reflexivity|]; split; [reflexivity|];
       repeat split; reflexivity).
  - do 5 eexists. split; [by_eval|].
    split; [reflexivity|]. split; [reflexivity|].
    repeat split; reflexivity.
Qed.

(** X15. For every [filepath] that has a name (the paths of type [Path]),
    on an accepting engine every builder ends with exactly one file in
    place and the session finalized. The file's name is [filepath] with its
    suffix, whatever it was, replaced by ".msh"; the model in it is named
    after the stem of [filepath] and was meshed in dimension 2 by the two
    planar builders and in dimension 3 by the prism builder. *)
Theorem output_file_and_dimension :
  forall (b : shape),
  exists (m : model) (f : Path),
    build b fresh
    = Returned tt {| initialized := false; options := []; models := [];
                     files := [(parent f ++ stem f ++ ".msh", m)];
                     fault := None |} /\
    f = match b with
        | Rectangle p _ _ _ _ => p
        | FracturedRectangle p _ _ _ _ _ => p
        | Cube p _ _ _ _ _ => p
        end /\
    name m = stem f /\
    meshDim m = match b with
                | Rectangle _ _ _ _ _ => Some 2
                | FracturedRectangle _ _ _ _ _ _ => Some 2
                | Cube _ _ _ _ _ _ => Some 3
                end /\
    synchronized m = true.
Proof.
  intros [f w h s z | f w h s z mode | f w h t s z].
  - eexists; exists f. split; [by_eval|]. repeat split; reflexivity.
  - unfold build, create_rectangle_frac_mesh.
    destruct (String.eqb mode "BC"); [|destruct (String.eqb mode "domain")];
      (eexists; exists f; split; [by_eval|]; repeat split; reflexivity).
  - eexists; exists f. split; [by_eval|]. repeat split; reflexivity.
Qed.

(** ** The mode and the caller's session *)

(** X16. The mode of the fractured-rectangle builder changes the tags only:
    for any two mode strings and the same other arguments, the written
    models have the same name, points, edges, edge loops and faces. *)
Theorem mode_changes_tags_only :
  forall (f : Path) (w h s z : R) (mode1 mode2 : string),
  exists (m1 m2 : model),
    mesh_of (FracturedRectangle f w h s z mode1) = Some m1 /\
    mesh_of (FracturedRectangle f w h s z mode2) = Some m2 /\
    name m1 = name m2 /\
    points m1 = points m2 /\
    lines m1 = lines m2 /\
    curveLoops m1 = curveLoops m2 /\
    planeSurfaces m1 = planeSurfaces m2 /\
    meshDim m1 = meshDim m2.
Proof.
  intros f w h s z mode1 mode2.
  unfold mesh_of, written, build, create_rectangle_frac_mesh.
  destruct (String.eqb mode1 "BC");
    [|destruct (String.eqb mode1 "domain")];
    (destruct (String.eqb mode2 "BC");
     [|destruct (String.eqb mode2 "domain")]);
    (do 2 eexists; split; [by_eval|]; split; [by_eval|];
     repeat split; reflexivity).
Qed.


